(** * wandb.sdk.launch.launch: the launch supervisor

    A shallow embedding of [src/wandb/sdk/launch/launch.py]
    ([push_to_queue], [_run], [run], [_wait_for]) and the properties the
    design document states about it.

    The module talks to collaborators whose code lives elsewhere
    (the run-spec builder, the project resolver, the backend loader, the
    backends and their run handles).  They are taken as parameters: each one
    is given by the outcome of a call, and every call is recorded in a trace
    so that order, number and absence of calls can be stated.  Python
    dictionaries that are passed by reference and mutated ([docker_args]) live
    in a store of objects.  [run_agent] only constructs a [LaunchAgent] and
    enters its loop, both defined elsewhere; it is not modelled. *)

From stdpp Require Import base strings list gmap.

(** ** Python values, exceptions and outcomes *)

(** Object identities of the mutable dictionaries in the store. *)
Abbreviation loc := nat.

(** The values of type [Any] that the module itself handles. *)
Inductive Any :=
| PyNone
| PyBool (b : bool)
| PyInt (z : Z)
| PyStr (s : string)
| PyRef (l : loc).

(** [Optional[bool]] as a value stored in a dictionary. *)
Definition of_optional_bool (o : option bool) : Any :=
  match o with
  | None => PyNone
  | Some b => PyBool b
  end.

(** An optional reference to a dictionary as a value stored in a dictionary. *)
Definition of_optional_ref (o : option loc) : Any :=
  match o with
  | None => PyNone
  | Some l => PyRef l
  end.

(** Truth value of an [Optional[bool]] in an [if]. *)
Definition truthy (o : option bool) : bool :=
  match o with
  | Some true => true
  | _ => false
  end.

(** The exceptions that reach this module.  [ExecutionException] and
    [LaunchException] derive from [Exception] (through [wandb.errors.Error]);
    [KeyboardInterrupt] derives from [BaseException] only. *)
Inductive exn :=
| ExecutionException (msg : string)
| LaunchException (msg : string)
| KeyboardInterrupt
| OtherException (cls msg : string)
| OtherBaseException (cls : string).

(** [isinstance(e, Exception)] *)
Definition isinstance_Exception (e : exn) : bool :=
  match e with
  | ExecutionException _ | LaunchException _ | OtherException _ _ => true
  | KeyboardInterrupt | OtherBaseException _ => false
  end.

(** [isinstance(e, KeyboardInterrupt)] *)
Definition isinstance_KeyboardInterrupt (e : exn) : bool :=
  match e with
  | KeyboardInterrupt => true
  | _ => false
  end.

(** What a call does: it returns a value or raises. *)
Inductive outcome (A : Type) :=
| Return (a : A)
| Raise (e : exn).
Arguments Return {A} a.
Arguments Raise {A} e.

Definition outcome_map {A B} (f : A → B) (o : outcome A) : outcome B :=
  match o with
  | Return a => Return (f a)
  | Raise e => Raise e
  end.

(** The part of [wandb.apis.internal.Api] the module uses. *)
Record Api := {
  settings : string → string;
  push_to_run_queue : string → gmap string Any → outcome Any;
}.

(** ** Python dictionaries whose order of keys is observed

    [", ".join(d.keys())] lists the keys in insertion order, and a key
    occurs once.  Such a dictionary is the list of its items. *)

Section PyDict.
Context {V : Type}.

(** [d[k] = v] *)
Fixpoint dict_setitem (k : string) (v : V) (d : list (string * V)) : list (string * V) :=
  match d with
  | [] => [(k, v)]
  | (k', v') :: d' =>
      if decide (k' = k) then (k, v) :: d' else (k', v') :: dict_setitem k v d'
  end.

(** [d.get(k)] *)
Fixpoint dict_get (k : string) (d : list (string * V)) : option V :=
  match d with
  | [] => None
  | (k', v') :: d' => if decide (k' = k) then Some v' else dict_get k d'
  end.

(** [d.keys()] *)
Definition dict_keys (d : list (string * V)) : list string := d.*1.

(** The dictionary display [{k1: v1, ..., kn: vn}]. *)
Definition dict_display (items : list (string * V)) : list (string * V) :=
  foldl (λ d kv, dict_setitem kv.1 kv.2 d) [] items.
End PyDict.

(** ** The world: the store of dictionaries and the trace of calls *)

Section Launch.
Context {Project Backend AbstractRun : Type}.

Inductive event :=
| Call_push_to_run_queue (queue : string) (run_spec : gmap string Any)
| Print_exception (e : exn)
| Call_construct_run_spec
    (uri : string) (experiment_name wandb_project wandb_entity : option string)
    (docker_image entry_point version : option string)
    (parameters launch_config : option (gmap string Any))
| Call_create_project_from_spec (run_spec : gmap string Any)
| Call_fetch_and_validate_project (project : Project)
| Call_load_backend (resource : string) (runner_config : gmap string Any)
| Call_backend_run (backend : Backend) (project : Project)
| Call_wait (h : AbstractRun)
| Call_cancel (h : AbstractRun)
| Log_info (msg : string)
| Log_error (msg : string).

Record world := World {
  heap : list (gmap string Any);
  trace : list event;
}.

(** Computations: a world goes in, a world and an outcome come out. *)
Definition M (A : Type) : Type := world → world * outcome A.

Definition ret {A} (a : A) : M A := λ w, (w, Return a).

Definition bind {A B} (m : M A) (k : A → M B) : M B :=
  λ w, match m w with
       | (w', Return a) => k a w'
       | (w', Raise e) => (w', Raise e)
       end.

(** [raise e] *)
Definition raise {A} (e : exn) : M A := λ w, (w, Raise e).

(** [try: body except <class>: handler]; [catches] is the [isinstance]
    test of the clause; the handler gets the exception, so that a bare
    [raise] in it is [raise e]. *)
Definition try_except {A} (body : M A) (catches : exn → bool) (handler : exn → M A) : M A :=
  λ w, match body w with
       | (w', Return a) => (w', Return a)
       | (w', Raise e) => if catches e then handler e w' else (w', Raise e)
       end.

(** Record an event. *)
Definition emit (ev : event) : M unit :=
  λ w, ({| heap := heap w; trace := trace w ++ [ev] |}, Return tt).

(** A call of a collaborator: the call is recorded, then it returns or
    raises as the collaborator does.  What a collaborator does to the store
    is its own business and is not part of this model: the store changes
    only where [launch.py] itself creates or assigns to a dictionary. *)
Definition call {A} (ev : event) (o : outcome A) : M A :=
  λ w, ({| heap := heap w; trace := trace w ++ [ev] |}, o).

(** [{}]: a new dictionary object. *)
Definition new_dict : M loc :=
  λ w, ({| heap := heap w ++ [∅]; trace := trace w |}, Return (length (heap w))).

(** [d[k] = v] on the dictionary object [d]. *)
Definition setitem (d : loc) (k : string) (v : Any) : M unit :=
  λ w, ({| heap := alter (insert k v) d (heap w); trace := trace w |}, Return tt).

Global Instance M_ret : MRet M := λ A, ret.
Global Instance M_bind : MBind M := λ A B k m, bind m k.

(** ** Parameters: the process and the collaborators

    What [launch.py] imports and does not define.  A collaborator is given
    by the outcome of its call on given arguments. *)

(** [sys.platform] *)
Variable sys_platform : string.
(** [utils._is_wandb_local_uri] *)
Variable _is_wandb_local_uri : string → bool.
(** [utils.PROJECT_SYNCHRONOUS], [utils.PROJECT_DOCKER_ARGS] *)
Variables PROJECT_SYNCHRONOUS PROJECT_DOCKER_ARGS : string.
(** [utils.construct_run_spec] *)
Variable construct_run_spec :
  string → option string → option string → option string →
  option string → option string → option string →
  option (gmap string Any) → option (gmap string Any) → outcome (gmap string Any).
(** [_project_spec.create_project_from_spec], [fetch_and_validate_project] *)
Variable create_project_from_spec : gmap string Any → Api → outcome Project.
Variable fetch_and_validate_project : Project → Api → outcome Project.
(** [loader.load_backend] and the registry [loader.WANDB_RUNNERS] *)
Variable load_backend : string → Api → gmap string Any → outcome (option Backend).
Variable WANDB_RUNNERS : list (string * (Api → gmap string Any → outcome Backend)).
(** [backend.run(project)] of a loaded backend *)
Variable backend_run : Backend → Project → outcome AbstractRun.
(** [wait()] and [cancel()] of a submitted run *)
Variable wait : AbstractRun → outcome bool.
Variable cancel : AbstractRun → outcome unit.

(** ** The functions of [launch.py] *)

Definition push_to_queue (api : Api) (queue : string) (run_spec : gmap string Any) : M Any :=
  try_except
    (res ← call (Call_push_to_run_queue queue run_spec) (push_to_run_queue api queue run_spec);
     mret res)
    isinstance_Exception
    (λ e, emit (Print_exception e);; mret PyNone).

Definition _run
    (uri : string) (experiment_name wandb_project wandb_entity : option string)
    (docker_image entry_point version : option string)
    (parameters : option (gmap string Any)) (docker_args : option loc)
    (resource : string) (launch_config : option (gmap string Any))
    (synchronous : option bool) (api : Api) : M AbstractRun :=
  run_spec ← call
    (Call_construct_run_spec uri experiment_name wandb_project wandb_entity
       docker_image entry_point version parameters launch_config)
    (construct_run_spec uri experiment_name wandb_project wandb_entity
       docker_image entry_point version parameters launch_config);
  project ← call (Call_create_project_from_spec run_spec)
    (create_project_from_spec run_spec api);
  project ← call (Call_fetch_and_validate_project project)
    (fetch_and_validate_project project api);
  let runner_config : gmap string Any := ∅ in
  let runner_config := <[PROJECT_SYNCHRONOUS := of_optional_bool synchronous]> runner_config in
  let runner_config := <[PROJECT_DOCKER_ARGS := of_optional_ref docker_args]> runner_config in
  backend ← call (Call_load_backend resource runner_config)
    (load_backend resource api runner_config);
  match backend with
  | Some backend =>
      submitted_run ← call (Call_backend_run backend project) (backend_run backend project);
      mret submitted_run
  | None =>
      raise (ExecutionException
               ("Unavailable backend " +:+ resource +:+ ", available backends: "
                  +:+ String.concat ", " (dict_keys WANDB_RUNNERS)))
  end.

Definition _wait_for (submitted_run_obj : AbstractRun) : M unit :=
  try_except
    (succeeded ← call (Call_wait submitted_run_obj) (wait submitted_run_obj);
     if succeeded : bool
     then emit (Log_info "=== Submitted run succeeded ===")
     else raise (ExecutionException "Submitted run failed"))
    isinstance_KeyboardInterrupt
    (λ e, emit (Log_error "=== Submitted run interrupted, cancelling run ===");;
          call (Call_cancel submitted_run_obj) (cancel submitted_run_obj);;
          raise e).

Definition run
    (uri : string) (api : Api) (entry_point version : option string)
    (parameters : option (gmap string Any)) (docker_args : option loc)
    (experiment_name : option string) (resource : string)
    (wandb_project wandb_entity docker_image : option string)
    (config : option (gmap string Any)) (synchronous : option bool) : M AbstractRun :=
  docker_args ← match docker_args with
                | None => new_dict
                | Some d => mret d
                end;
  (if _is_wandb_local_uri (settings api "base_url") then
     (if decide (sys_platform = "win32")
      then setitem docker_args "net" (PyStr "host")
      else setitem docker_args "network" (PyStr "host"));;
     (if decide (sys_platform = "linux" ∨ sys_platform = "linux2")
      then setitem docker_args "add-host" (PyStr "host.docker.internal:host-gateway")
      else mret tt)
   else mret tt);;
  let config := default ∅ config in
  submitted_run_obj ← _run uri experiment_name wandb_project wandb_entity docker_image
    entry_point version parameters (Some docker_args) resource (Some config) synchronous api;
  (if truthy synchronous
   then _wait_for submitted_run_obj
   else raise (LaunchException "Non synchronous mode not supported"));;
  mret submitted_run_obj.

End Launch.

(** ** The backend loader *)

Module loader.
Section Loader.
Context {Backend : Type}.

(** Modelled from the spec: [runner/loader.py] is not among the sources.
    Section 4.3: the registry is a static mapping of resource-name string
    to backend constructor, the lookup is case-exact, and [load] returns
    null (not an error) when the name is unknown; a known name is
    constructed with the api client and the runner configuration. *)
Definition load_backend
    (WANDB_RUNNERS : list (string * (Api → gmap string Any → outcome Backend)))
    (backend_name : string) (api : Api) (backend_config : gmap string Any)
    : outcome (option Backend) :=
  match dict_get backend_name WANDB_RUNNERS with
  | Some runner => outcome_map Some (runner api backend_config)
  | None => Return None
  end.

(** A name is registered when the registry has an entry for it. *)
Definition registered
    (WANDB_RUNNERS : list (string * (Api → gmap string Any → outcome Backend)))
    (name : string) : Prop :=
  is_Some (dict_get name WANDB_RUNNERS).
End Loader.
End loader.

(** ** Vocabulary of the properties *)

(** How often [name] occurs in a list of names. *)
Definition occurrences (name : string) (names : list string) : nat :=
  length (List.filter (λ n, bool_decide (n = name)) names).

(** Lines 160-166 of [run] as a function of the platform and of whether the
    base url is locally hosted: the items assigned to [docker_args], in the
    order of the assignments. *)
Definition extra_docker_args (platform : string) (is_local : bool) : list (string * Any) :=
  if is_local then
    (if decide (platform = "win32")
     then [("net", PyStr "host")]
     else [("network", PyStr "host")])
    ++ (if decide (platform = "linux" ∨ platform = "linux2")
        then [("add-host", PyStr "host.docker.internal:host-gateway")]
        else [])
  else [].

(** The platform table of the design document (section 8): the docker
    arguments for a locally hosted service on the documented platforms. *)
Definition platform_table (platform : string) : list (string * Any) :=
  if decide (platform = "linux") then
    [("network", PyStr "host"); ("add-host", PyStr "host.docker.internal:host-gateway")]
  else if decide (platform = "win32") then
    [("net", PyStr "host")]
  else [].

(** [d.update(items)] *)
Definition dict_update (items : list (string * Any)) (d : gmap string Any) : gmap string Any :=
  foldl (λ d kv, <[kv.1 := kv.2]> d) d items.

(** The runner configuration that [_run] hands to the backend loader. *)
Definition runner_config_of (PROJECT_SYNCHRONOUS PROJECT_DOCKER_ARGS : string)
    (synchronous : option bool) (docker_args : option loc) : gmap string Any :=
  <[PROJECT_DOCKER_ARGS := of_optional_ref docker_args]>
    (<[PROJECT_SYNCHRONOUS := of_optional_bool synchronous]> ∅).

(** The store when [run] has got hold of its [docker_args] object: the
    caller's store, with a new empty dictionary when the caller passes none. *)
Definition heap_with_docker_args (docker_args : option loc) (hp : list (gmap string Any))
    : list (gmap string Any) :=
  match docker_args with
  | Some _ => hp
  | None => hp ++ [∅]
  end.

Section Worlds.
Context {Project Backend AbstractRun : Type}.
Context `{!EqDecision AbstractRun}.
Local Abbreviation world := (@world Project Backend AbstractRun).
Local Abbreviation event := (@event Project Backend AbstractRun).
Local Abbreviation M := (@M Project Backend AbstractRun).

(** The world [w] after the events [evs], the store untouched. *)
Definition after (w : world) (evs : list event) : world :=
  {| heap := heap w; trace := trace w ++ evs |}.

(** Is the event a [cancel()] on the handle [h]? *)
Definition is_cancel_on (h : AbstractRun) (ev : event) : bool :=
  match ev with
  | Call_cancel h' => bool_decide (h' = h)
  | _ => false
  end.

(** The number of [cancel()] calls on [h] in a trace. *)
Definition cancel_calls (h : AbstractRun) (tr : list event) : nat :=
  length (List.filter (is_cancel_on h) tr).

(** The dictionary object [run] works on: the caller's, or the one it
    creates when the caller passes none. *)
Definition docker_args_object (docker_args : option loc) (w : world) : loc :=
  match docker_args with
  | Some d => d
  | None => length (heap w)
  end.

(** What that dictionary holds when [run] is entered. *)
Definition docker_args_on_entry (docker_args : option loc) (w : world)
    : option (gmap string Any) :=
  match docker_args with
  | Some d => heap w !! d
  | None => Some ∅
  end.

(** The store when [run] has assigned the docker arguments of the platform
    to its [docker_args] object. *)
Definition heap_after_injection (platform : string) (is_local : bool)
    (docker_args : option loc) (w : world) : list (gmap string Any) :=
  alter (dict_update (extra_docker_args platform is_local))
    (docker_args_object docker_args w)
    (heap_with_docker_args docker_args (heap w)).

(** A computation that leaves the store as it is. *)
Definition preserves_heap {A} (m : M A) : Prop :=
  ∀ w, heap (m w).1 = heap w.
End Worlds.

(** ** A stub deployment

    The scenario of the design document: a project at [/local/proj], the
    registry with the one backend [local], whose submission succeeds.
    Projects and backends are named by strings, run handles by numbers. *)

Module stub.
Definition PROJECT_SYNCHRONOUS := "SYNCHRONOUS".
Definition PROJECT_DOCKER_ARGS := "DOCKER_ARGS".

Definition _is_wandb_local_uri (url : string) : bool :=
  bool_decide (url = "http://localhost:8080").

(** An api client of a locally hosted service, and one of the cloud. *)
Definition local_api : Api :=
  {| settings := λ _, "http://localhost:8080";
     push_to_run_queue := λ _ _, Return (PyStr "queued") |}.
Definition cloud_api : Api :=
  {| settings := λ _, "https://api.wandb.ai";
     push_to_run_queue := λ _ _, Return (PyStr "queued") |}.
(** An api client whose queue push raises [e]. *)
Definition failing_api (e : exn) : Api :=
  {| settings := λ _, "https://api.wandb.ai";
     push_to_run_queue := λ _ _, Raise e |}.

Definition construct_run_spec
    (uri : string) (experiment_name wandb_project wandb_entity : option string)
    (docker_image entry_point version : option string)
    (parameters launch_config : option (gmap string Any)) : outcome (gmap string Any) :=
  Return {[ "uri" := PyStr uri ]}.
Definition create_project_from_spec (run_spec : gmap string Any) (api : Api) : outcome string :=
  Return "project".
Definition fetch_and_validate_project (project : string) (api : Api) : outcome string :=
  Return project.
Definition WANDB_RUNNERS : list (string * (Api → gmap string Any → outcome string)) :=
  dict_display [("local", λ _ _, Return "LocalRunner")].
Definition load_backend := loader.load_backend WANDB_RUNNERS.
(** Every submission hands out the run handle 7. *)
Definition backend_run (backend project : string) : outcome nat := Return 7.

(** The empty world, and a world in which the caller owns the dictionary
    with [rm] set to [True] and [net] set to [bridge], at location 0. *)
Definition w0 : @world string string nat := {| heap := []; trace := [] |}.
Definition w1 : @world string string nat :=
  {| heap := [ {[ "rm" := PyBool true; "net" := PyStr "bridge" ]} ]; trace := [] |}.

(** [run("/local/proj", api, docker_args=..., resource=..., synchronous=...)]
    on [platform], with a handle whose [wait()] and [cancel()] do as given. *)
Definition run (platform : string) (api : Api) (docker_args : option loc) (resource : string)
    (synchronous : option bool) (wait : outcome bool) (cancel : outcome unit) : M nat :=
  run platform _is_wandb_local_uri PROJECT_SYNCHRONOUS PROJECT_DOCKER_ARGS
    construct_run_spec create_project_from_spec fetch_and_validate_project
    load_backend WANDB_RUNNERS backend_run (λ _, wait) (λ _, cancel)
    "/local/proj" api None None None docker_args None resource None None None None synchronous.
End stub.

(** * tests.test_library_public: the allowlists of public symbols

    A shallow embedding of [src/tests/test_library_public.py].  Each test
    takes the names that [dir] gives for the object under test (the [wandb]
    module, the [Run] class, the [Config] class), keeps the public ones,
    prints them, and asserts that none is outside the allowlists.  The names
    of [dir] are the argument of the test; the result is what the test
    prints and whether the assertion holds. *)

Module test_library_public.

(** [s.startswith("_")] *)
Definition startswith_underscore (s : string) : bool := String.prefix "_" s.

(** [{s for s in symbol_list if not s.startswith("_")}] *)
Definition public_symbols (symbol_list : list string) : gset string :=
  list_to_set (List.filter (λ s, negb (startswith_underscore s)) symbol_list).

(** [assert symbol_unknown == set()] *)
Definition assert_empty (symbol_unknown : gset string) : outcome unit :=
  if decide (symbol_unknown = ∅) then Return tt
  else Raise (OtherException "AssertionError" "").

Definition SYMBOLS_ROOT_DATATYPES : gset string :=
  list_to_set
    ["Graph"; "Image"; "Plotly"; "Video"; "Audio"; "Table"; "Html"; "Object3D";
     "Molecule"; "Histogram"; "Classes"; "JoinedTable"].

Definition SYMBOLS_ROOT_SDK : gset string :=
  list_to_set
    ["login"; "init"; "log"; "log_artifact"; "use_artifact"; "define_metric";
     "summary"; "config"; "join"; "finish"; "watch"; "unwatch"; "helper"; "agent";
     "controller"; "sweep"; "mark_preempting"; "load_ipython_extension"; "require";
     "profiler"].

Definition SYMBOLS_ROOT_OTHER : gset string :=
  list_to_set
    ["AlertLevel"; "Api"; "Artifact"; "CommError"; "Config"; "Error"; "InternalApi";
     "PublicApi"; "START_TIME"; "Settings"; "UsageError"; "absolute_import"; "agents";
     "alert"; "api"; "apis"; "compat"; "data_types"; "division"; "docker"; "sdk_py27";
     "wandb.docker"; "dummy"; "ensure_configured"; "env"; "errors"; "filesync"; "gym";
     "integration"; "jupyter"; "keras"; "lightgbm"; "old"; "patched"; "plot";
     "plot_table"; "plots"; "print_function"; "proto"; "restore"; "run"; "sacred";
     "sagemaker_auth"; "save"; "sdk"; "set_trace"; "setup"; "sklearn"; "sys";
     "tensorboard"; "wandb.tensorboard"; "tensorflow"; "termerror"; "termlog";
     "termsetup"; "termwarn"; "trigger"; "unicode_literals"; "util"; "vendor";
     "visualize"; "viz"; "wandb"; "wandb_agent"; "wandb_controller"; "wandb_lib";
     "wandb_sdk"; "wandb_torch"; "xgboost"; "sync"; "sweeps"; "cli"].

(** [dir_wandb] is [dir(wandb)]; the first component is what is printed. *)
Definition test_library_root (dir_wandb : list string) : gset string * outcome unit :=
  let symbol_list := dir_wandb in
  let symbol_public_set := public_symbols symbol_list in
  let symbol_unknown :=
    symbol_public_set ∖ SYMBOLS_ROOT_DATATYPES ∖ SYMBOLS_ROOT_SDK ∖ SYMBOLS_ROOT_OTHER in
  (symbol_public_set, assert_empty symbol_unknown).

Definition SYMBOLS_RUN : gset string :=
  list_to_set
    ["job_type"; "group"; "entity"; "project"; "name"; "id"; "join"; "finish"; "watch";
     "config"; "config_static"; "log"; "log_artifact"; "upsert_artifact";
     "finish_artifact"; "use_artifact"; "log_code"; "alert"; "define_metric"; "mode";
     "disabled"; "offline"; "save"; "restore"; "notes"; "tags"; "mark_preempting";
     "to_html"; "display"].

Definition SYMBOLS_RUN_RESUME : gset string :=
  list_to_set ["starting_step"; "step"; "resumed"].

Definition SYMBOLS_RUN_OTHER : gset string :=
  list_to_set
    ["path"; "plot_table"; "get_project_url"; "url"; "get_url"; "get_sweep_url";
     "start_time"; "sweep_id"; "dir"; "project_name"].

(** [dir_Run] is [dir(wandb.wandb_sdk.wandb_run.Run)]. *)
Definition test_library_run (dir_Run : list string) : gset string * outcome unit :=
  let symbol_list := dir_Run in
  let symbol_public_set := public_symbols symbol_list in
  let symbol_unknown :=
    symbol_public_set ∖ SYMBOLS_RUN ∖ SYMBOLS_RUN_RESUME ∖ SYMBOLS_RUN_OTHER in
  (symbol_public_set, assert_empty symbol_unknown).

Definition SYMBOLS_CONFIG : gset string :=
  list_to_set ["get"; "update"; "setdefaults"; "items"; "keys"].

Definition SYMBOLS_CONFIG_OTHER : gset string :=
  list_to_set ["as_dict"; "update_locked"; "persist"].

(** [dir_Config] is [dir(wandb.wandb_sdk.wandb_config.Config)]. *)
Definition test_library_config (dir_Config : list string) : gset string * outcome unit :=
  let symbol_list := dir_Config in
  let symbol_public_set := public_symbols symbol_list in
  let symbol_unknown := symbol_public_set ∖ SYMBOLS_CONFIG ∖ SYMBOLS_CONFIG_OTHER in
  (symbol_public_set, assert_empty symbol_unknown).

End test_library_public.

(** * Properties *)

(** ** Dictionaries as lists of items *)

Section PyDictFacts.
Context {V : Type}.
Implicit Types (d : list (string * V)) (k : string) (v : V).

Lemma dict_keys_setitem k v d :
  dict_keys (dict_setitem k v d)
  = (if decide (k ∈ dict_keys d) then dict_keys d else dict_keys d ++ [k]).
Proof.
  unfold dict_keys. induction d as [|[k' v'] d IH].
  - destruct (decide (k ∈ ([] : list (string * V)).*1)) as [Hin|_]; [| done].
    by apply not_elem_of_nil in Hin.
  - cbn [dict_setitem fmap list_fmap fst].
    destruct (decide (k' = k)) as [->|Hne].
    + destruct (decide (k ∈ k :: d.*1)) as [_|Hnin]; [done |].
      exfalso. apply Hnin. by left.
    + cbn [fmap list_fmap fst]. rewrite IH.
      destruct (decide (k ∈ d.*1)) as [Hin|Hnin];
        destruct (decide (k ∈ k' :: d.*1)) as [Hin'|Hnin']; try done.
      * exfalso. apply Hnin'. by right.
      * apply elem_of_cons in Hin' as [->|Hin']; done.
Qed.

Lemma dict_keys_setitem_NoDup k v d :
  NoDup (dict_keys d) → NoDup (dict_keys (dict_setitem k v d)).
Proof.
  intros Hd. rewrite dict_keys_setitem. case_decide; [done |].
  apply NoDup_app. split; [done |]. split; [| apply NoDup_singleton].
  intros x Hx Hx'. apply list_elem_of_singleton in Hx' as ->. done.
Qed.

(** The keys of a dictionary display are pairwise distinct. *)
Lemma dict_keys_display_NoDup (items : list (string * V)) :
  NoDup (dict_keys (dict_display items)).
Proof.
  unfold dict_display.
  assert (Hgen : ∀ d, NoDup (dict_keys d) →
    NoDup (dict_keys (foldl (λ d kv, dict_setitem kv.1 kv.2 d) d items))).
  { induction items as [|[k v] items IH]; intros d Hd; simpl; [done |].
    apply IH. by apply dict_keys_setitem_NoDup. }
  apply Hgen. apply NoDup_nil_2.
Qed.

Lemma dict_get_is_Some k d : is_Some (dict_get k d) ↔ k ∈ dict_keys d.
Proof.
  unfold dict_keys. induction d as [|[k' v'] d IH]; simpl.
  - split; [intros [? ?]; done | intros H; by apply not_elem_of_nil in H].
  - destruct (decide (k' = k)) as [->|Hne].
    + split; [intros _; by left | intros _; by eexists].
    + rewrite IH. split; [intros H; by right |].
      intros H. apply elem_of_cons in H as [->|H]; done.
Qed.
End PyDictFacts.

Lemma occurrences_not_elem name names : name ∉ names → occurrences name names = 0.
Proof.
  unfold occurrences. induction names as [|n names IH]; intros Hn; simpl; [done |].
  apply not_elem_of_cons in Hn as [Hne Hn].
  rewrite bool_decide_eq_false_2; [by apply IH | done].
Qed.

(** In a list without duplicates a member occurs once. *)
Lemma occurrences_NoDup name names :
  NoDup names → name ∈ names → occurrences name names = 1.
Proof.
  unfold occurrences. induction 1 as [|n names Hn Hnd IH]; intros Hin.
  - by apply not_elem_of_nil in Hin.
  - simpl. destruct (decide (n = name)) as [->|Hne].
    + rewrite bool_decide_eq_true_2; [| done]. simpl. f_equal.
      by apply occurrences_not_elem.
    + rewrite bool_decide_eq_false_2; [| done]. apply IH.
      apply elem_of_cons in Hin as [->|Hin]; done.
Qed.

(** ** The monad *)

Ltac eval_M :=
  cbv beta iota zeta delta
    [mbind M_bind bind mret M_ret ret raise try_except emit call after
     heap trace fst snd].

Section MonadFacts.
Context {Project Backend AbstractRun : Type}.
Local Abbreviation world := (@world Project Backend AbstractRun).
Local Abbreviation M := (@M Project Backend AbstractRun).

Lemma preserves_heap_ret {A} (a : A) : preserves_heap (mret a : M A).
Proof. by intros w. Qed.

Lemma preserves_heap_raise {A} e : preserves_heap (raise e : M A).
Proof. by intros w. Qed.

Lemma preserves_heap_emit ev : preserves_heap (emit ev : M unit).
Proof. by intros w. Qed.

Lemma preserves_heap_call {A} ev (o : outcome A) : preserves_heap (call ev o : M A).
Proof. by intros w. Qed.

Lemma preserves_heap_bind {A B} (m : M A) (k : A → M B) :
  preserves_heap m → (∀ a, preserves_heap (k a)) → preserves_heap (m ≫= k).
Proof.
  intros Hm Hk w. specialize (Hm w). unfold mbind, M_bind, bind.
  destruct (m w) as [w' [a|e]]; simpl in *; [| done].
  by rewrite Hk.
Qed.

Lemma preserves_heap_try_except {A} (body : M A) catches handler :
  preserves_heap body → (∀ e, preserves_heap (handler e)) →
  preserves_heap (try_except body catches handler).
Proof.
  intros Hb Hh w. specialize (Hb w). unfold try_except.
  destruct (body w) as [w' [a|e]]; simpl in *; [done |].
  destruct (catches e); [| done]. by rewrite Hh.
Qed.
End MonadFacts.

Ltac solve_preserves_heap :=
  repeat first
    [ apply preserves_heap_bind; [| intros ?]
    | apply preserves_heap_try_except; [| intros ?]
    | apply preserves_heap_ret | apply preserves_heap_raise
    | apply preserves_heap_emit | apply preserves_heap_call
    | match goal with |- preserves_heap (match ?x with _ => _ end) => destruct x end ].

(** ** The store after the injection of the docker arguments *)

Lemma alter_dict_update_nil (i : nat) (hp : list (gmap string Any)) :
  alter (dict_update []) i hp = hp.
Proof. by apply list_alter_id. Qed.

Lemma alter_dict_update_cons k v items (i : nat) (hp : list (gmap string Any)) :
  alter (dict_update ((k, v) :: items)) i hp
  = alter (dict_update items) i (alter (insert k v) i hp).
Proof. by rewrite list_alter_alter_eq. Qed.

Section InjectionFacts.
Context {Project Backend AbstractRun : Type}.
Local Abbreviation world := (@world Project Backend AbstractRun).
Implicit Types (w : world) (docker_args : option loc).

(** The [docker_args] object holds what it held on entry, updated with the
    extra docker arguments. *)
Lemma heap_after_injection_lookup platform is_local docker_args w d0 :
  docker_args_on_entry docker_args w = Some d0 →
  heap_after_injection platform is_local docker_args w !! docker_args_object docker_args w
  = Some (dict_update (extra_docker_args platform is_local) d0).
Proof.
  intros Hd0. unfold heap_after_injection. rewrite list_lookup_alter_eq.
  unfold docker_args_on_entry, docker_args_object, heap_with_docker_args in *.
  destruct docker_args as [d|].
  - by rewrite Hd0.
  - injection Hd0 as <-. by rewrite list_lookup_middle.
Qed.
End InjectionFacts.

(** ** The supervisor: [_wait_for], [_run] and [run] *)

Ltac norm_trace := unfold after; cbn [heap trace]; repeat rewrite <- app_assoc; cbn [app].

Section Supervisor.
Context {Project Backend AbstractRun : Type}.
Context `{!EqDecision AbstractRun}.
Local Abbreviation world := (@world Project Backend AbstractRun).
Local Abbreviation event := (@event Project Backend AbstractRun).
Local Abbreviation M := (@M Project Backend AbstractRun).

(** The process and the collaborators. *)
Variable sys_platform : string.
Variable _is_wandb_local_uri : string → bool.
Variables PROJECT_SYNCHRONOUS PROJECT_DOCKER_ARGS : string.
Variable construct_run_spec :
  string → option string → option string → option string →
  option string → option string → option string →
  option (gmap string Any) → option (gmap string Any) → outcome (gmap string Any).
Variable create_project_from_spec : gmap string Any → Api → outcome Project.
Variable fetch_and_validate_project : Project → Api → outcome Project.
Variable load_backend : string → Api → gmap string Any → outcome (option Backend).
Variable WANDB_RUNNERS : list (string * (Api → gmap string Any → outcome Backend)).
Variable backend_run : Backend → Project → outcome AbstractRun.
Variable wait : AbstractRun → outcome bool.
Variable cancel : AbstractRun → outcome unit.

(** The arguments of a call of [run]. *)
Variables (uri : string) (api : Api) (entry_point version : option string).
Variables (parameters : option (gmap string Any)) (docker_args : option loc).
Variables (experiment_name : option string) (resource : string).
Variables (wandb_project wandb_entity docker_image : option string).
Variables (config : option (gmap string Any)) (synchronous : option bool).

Local Abbreviation wait_for := (_wait_for wait cancel).
Local Abbreviation submit :=
  (_run PROJECT_SYNCHRONOUS PROJECT_DOCKER_ARGS construct_run_spec create_project_from_spec
     fetch_and_validate_project load_backend WANDB_RUNNERS backend_run
     uri experiment_name wandb_project wandb_entity docker_image entry_point version parameters).
Local Abbreviation launch :=
  (run sys_platform _is_wandb_local_uri PROJECT_SYNCHRONOUS PROJECT_DOCKER_ARGS
     construct_run_spec create_project_from_spec fetch_and_validate_project
     load_backend WANDB_RUNNERS backend_run wait cancel
     uri api entry_point version parameters docker_args experiment_name resource
     wandb_project wandb_entity docker_image config synchronous).
Local Abbreviation is_local := (_is_wandb_local_uri (settings api "base_url")).
Local Abbreviation unsupported := (LaunchException "Non synchronous mode not supported").

Lemma cancel_calls_app (h : AbstractRun) (tr tr' : list event) :
  cancel_calls h (tr ++ tr') = cancel_calls h tr + cancel_calls h tr'.
Proof. unfold cancel_calls. by rewrite List.filter_app, length_app. Qed.

Lemma cancel_calls_interrupted (h : AbstractRun) msg :
  cancel_calls h [Call_wait h; Log_error msg; Call_cancel h : event] = 1.
Proof. unfold cancel_calls. simpl. by rewrite bool_decide_eq_true_2. Qed.

(** *** [_wait_for] *)

(** What [_wait_for] does, by what [wait()] and [cancel()] do. *)
Lemma _wait_for_eq (h : AbstractRun) (w : world) :
  wait_for h w =
  match wait h with
  | Return true =>
      (after w [Call_wait h; Log_info "=== Submitted run succeeded ==="], Return tt)
  | Return false =>
      (after w [Call_wait h], Raise (ExecutionException "Submitted run failed"))
  | Raise e =>
      if isinstance_KeyboardInterrupt e then
        (after w [Call_wait h;
                  Log_error "=== Submitted run interrupted, cancelling run ===";
                  Call_cancel h],
         match cancel h with
         | Return _ => Raise e
         | Raise e' => Raise e'
         end)
      else (after w [Call_wait h], Raise e)
  end.
Proof.
  unfold _wait_for. eval_M.
  destruct (wait h) as [[|]|e]; try (norm_trace; reflexivity).
  destruct (isinstance_KeyboardInterrupt e); [| reflexivity].
  destruct (cancel h); norm_trace; reflexivity.
Qed.

Lemma _wait_for_preserves_heap (h : AbstractRun) : preserves_heap (wait_for h : M unit).
Proof. unfold _wait_for. solve_preserves_heap. Qed.

(** *** [_run] *)

Lemma _run_preserves_heap d r c s a : preserves_heap (submit d r c s a).
Proof. unfold _run. solve_preserves_heap. Qed.

(** *** [run] *)

(** [run] first gets hold of its [docker_args] object and assigns the extra
    docker arguments to it, which touches the store only; the rest is
    [_run] and the wait. *)
Lemma run_eq (w : world) :
  launch w =
  (submitted_run_obj ← submit (Some (docker_args_object docker_args w)) resource
       (Some (default ∅ config)) synchronous api;
   (if truthy synchronous then wait_for submitted_run_obj else raise unsupported);;
   mret submitted_run_obj)
    {| heap := heap_after_injection sys_platform is_local docker_args w; trace := trace w |}.
Proof.
  unfold run, heap_after_injection, extra_docker_args, docker_args_object,
    heap_with_docker_args.
  destruct docker_args as [d|]; destruct is_local;
    destruct (decide (sys_platform = "win32"));
    destruct (decide (sys_platform = "linux" ∨ sys_platform = "linux2"));
    cbn [app];
    rewrite ?alter_dict_update_cons, ?alter_dict_update_nil;
    destruct w; reflexivity.
Qed.

(** [run] leaves the store as the injection leaves it: neither [_run] nor
    the wait assigns to a dictionary. *)
Lemma run_heap (w : world) :
  heap (launch w).1 = heap_after_injection sys_platform is_local docker_args w.
Proof.
  rewrite run_eq.
  match goal with |- heap (?m ?w').1 = _ => assert (Hm : preserves_heap m) end.
  { apply preserves_heap_bind; [apply _run_preserves_heap | intros h].
    apply preserves_heap_bind; [| intros _; apply preserves_heap_ret].
    destruct (truthy synchronous);
      [apply _wait_for_preserves_heap | apply preserves_heap_raise]. }
  by rewrite Hm.
Qed.

(** What the [docker_args] object holds when [run] is left, whatever the
    outcome of [run]. *)
Lemma run_docker_args (w : world) (d0 : gmap string Any) :
  docker_args_on_entry docker_args w = Some d0 →
  heap (launch w).1 !! docker_args_object docker_args w
  = Some (dict_update (extra_docker_args sys_platform is_local) d0).
Proof. intros Hd0. rewrite run_heap. by apply heap_after_injection_lookup. Qed.

(** An unknown resource: the loader returns [None], [_run] raises. *)
Lemma run_unavailable_backend (w : world) (run_spec : gmap string Any)
    (project project' : Project) :
  construct_run_spec uri experiment_name wandb_project wandb_entity docker_image
    entry_point version parameters (Some (default ∅ config)) = Return run_spec →
  create_project_from_spec run_spec api = Return project →
  fetch_and_validate_project project api = Return project' →
  load_backend resource api
    (runner_config_of PROJECT_SYNCHRONOUS PROJECT_DOCKER_ARGS synchronous
       (Some (docker_args_object docker_args w))) = Return None →
  (launch w).2 =
  Raise (ExecutionException
           ("Unavailable backend " +:+ resource +:+ ", available backends: "
              +:+ String.concat ", " (dict_keys WANDB_RUNNERS))).
Proof.
  intros H_spec H_create H_fetch H_load. unfold runner_config_of in H_load.
  rewrite run_eq. unfold _run. eval_M.
  rewrite H_spec. eval_M. rewrite H_create. eval_M. rewrite H_fetch. eval_M.
  rewrite H_load. reflexivity.
Qed.

(** *** A submission that succeeds *)

Section Submitted.
Variable w : world.
Variables (run_spec : gmap string Any) (project project' : Project).
Variables (backend : Backend) (h : AbstractRun).

Hypothesis H_spec :
  construct_run_spec uri experiment_name wandb_project wandb_entity docker_image
    entry_point version parameters (Some (default ∅ config)) = Return run_spec.
Hypothesis H_create : create_project_from_spec run_spec api = Return project.
Hypothesis H_fetch : fetch_and_validate_project project api = Return project'.
Hypothesis H_load :
  load_backend resource api
    (runner_config_of PROJECT_SYNCHRONOUS PROJECT_DOCKER_ARGS synchronous
       (Some (docker_args_object docker_args w))) = Return (Some backend).
Hypothesis H_run : backend_run backend project' = Return h.

(** The calls of the four stages, in the order of [_run]. *)
Local Abbreviation stages :=
  [Call_construct_run_spec uri experiment_name wandb_project wandb_entity docker_image
     entry_point version parameters (Some (default ∅ config));
   Call_create_project_from_spec run_spec;
   Call_fetch_and_validate_project project;
   Call_load_backend resource
     (runner_config_of PROJECT_SYNCHRONOUS PROJECT_DOCKER_ARGS synchronous
        (Some (docker_args_object docker_args w)));
   Call_backend_run backend project'].

Lemma _run_submits (w1 : world) :
  submit (Some (docker_args_object docker_args w)) resource (Some (default ∅ config))
    synchronous api w1
  = (after w1 stages, Return h).
Proof.
  unfold runner_config_of in *. unfold _run. eval_M.
  rewrite H_spec. eval_M. rewrite H_create. eval_M. rewrite H_fetch. eval_M.
  rewrite H_load. eval_M. rewrite H_run. norm_trace. reflexivity.
Qed.

(** The world in which the wait begins. *)
Local Abbreviation submitted :=
  (after {| heap := heap_after_injection sys_platform is_local docker_args w;
            trace := trace w |} stages).

(** A synchronous [run] is the submission followed by [_wait_for]. *)
Lemma run_synchronous :
  truthy synchronous = true →
  launch w = match wait_for h submitted with
             | (w', Return _) => (w', Return h)
             | (w', Raise e) => (w', Raise e)
             end.
Proof.
  intros Hsync. rewrite run_eq. unfold mbind, M_bind, bind.
  rewrite _run_submits, Hsync.
  destruct (wait_for h _) as [w' [[]|e]]; reflexivity.
Qed.

(** Without [synchronous], [run] submits all the same and then raises. *)
Lemma run_not_synchronous :
  truthy synchronous = false →
  launch w = (submitted, Raise unsupported).
Proof.
  intros Hsync. rewrite run_eq. unfold mbind, M_bind, bind.
  rewrite _run_submits, Hsync. reflexivity.
Qed.

Lemma cancel_calls_stages : cancel_calls h stages = 0.
Proof. reflexivity. Qed.

(** C8. A successful synchronous [run] calls the stages in the fixed order
    RunSpec Builder ([construct_run_spec]), Project Resolver
    ([create_project_from_spec], then [fetch_and_validate_project]), Backend
    Loader ([load_backend]), Backend Runner ([backend.run]), and only then
    blocks on [wait()] of the handle that [backend.run] returned; it returns
    that handle. *)
Theorem run_stages_in_order :
  truthy synchronous = true →
  wait h = Return true →
  launch w =
  ({| heap := heap_after_injection sys_platform is_local docker_args w;
      trace := trace w ++
        [Call_construct_run_spec uri experiment_name wandb_project wandb_entity
           docker_image entry_point version parameters (Some (default ∅ config));
         Call_create_project_from_spec run_spec;
         Call_fetch_and_validate_project project;
         Call_load_backend resource
           (runner_config_of PROJECT_SYNCHRONOUS PROJECT_DOCKER_ARGS synchronous
              (Some (docker_args_object docker_args w)));
         Call_backend_run backend project';
         Call_wait h;
         Log_info "=== Submitted run succeeded ==="] |},
   Return h).
Proof.
  intros Hsync Hwait. rewrite run_synchronous; [| done].
  rewrite _wait_for_eq, Hwait. norm_trace. reflexivity.
Qed.

(** C3. For a synchronous [run] whose backend submission succeeds: if
    [wait()] of the submitted handle returns false, [run] raises
    [ExecutionException("Submitted run failed")]; if it returns true, [run]
    returns that handle and raises nothing. *)
Theorem run_synchronous_outcome :
  truthy synchronous = true →
  (wait h = Return false →
   (launch w).2 = Raise (ExecutionException "Submitted run failed"))
  ∧ (wait h = Return true → (launch w).2 = Return h).
Proof.
  intros Hsync.
  split; intros Hwait; rewrite run_synchronous; try done;
    by rewrite _wait_for_eq, Hwait.
Qed.


(** C6, as the code has it.  When an exception [e] comes out of the blocked
    [wait()] of a synchronous [run]: if [e] is a [KeyboardInterrupt], [run]
    calls [cancel()] on the handle, once, before anything reaches the
    caller; if [e] is any other exception, [run] does not call [cancel()]
    and [e] reaches the caller as it is. *)
Theorem run_cancels_on_interrupt_only (e : exn) :
  truthy synchronous = true →
  wait h = Raise e →
  if isinstance_KeyboardInterrupt e then
    trace (launch w).1 =
      trace w ++ stages ++
        [Call_wait h;
         Log_error "=== Submitted run interrupted, cancelling run ===";
         Call_cancel h]
    ∧ cancel_calls h (trace (launch w).1) = cancel_calls h (trace w) + 1
  else
    launch w = (after submitted [Call_wait h], Raise e)
    ∧ cancel_calls h (trace (launch w).1) = cancel_calls h (trace w).
Proof.
  intros Hsync Hwait. rewrite run_synchronous; [| done].
  rewrite _wait_for_eq, Hwait.
  destruct (isinstance_KeyboardInterrupt e).
  - destruct (cancel h) as [[]|e']; unfold after; cbn [fst snd heap trace].
    all: split; [by rewrite <- app_assoc |].
    all: rewrite !cancel_calls_app, cancel_calls_stages, cancel_calls_interrupted; lia.
  - split; [reflexivity |]. unfold after. cbn [fst heap trace].
    rewrite !cancel_calls_app, cancel_calls_stages.
    change (cancel_calls h [Call_wait h : event]) with 0. lia.
Qed.

(** X16. When [wait()] of a synchronous [run] is interrupted and [cancel()]
    itself raises, the exception of [cancel()] is the one that reaches the
    caller, in place of the [KeyboardInterrupt]. *)
Lemma run_interrupt_cancel_raises (e' : exn) :
  truthy synchronous = true →
  wait h = Raise KeyboardInterrupt →
  cancel h = Raise e' →
  (launch w).2 = Raise e'.
Proof.
  intros Hsync Hwait Hcancel. rewrite run_synchronous; [| done].
  by rewrite _wait_for_eq, Hwait, Hcancel.
Qed.

End Submitted.

(** *** The docker arguments *)

(** C5. For a base url classified as locally hosted, what [run] assigns to
    the docker arguments is exactly the platform table: on linux
    [network=host] and [add-host=host.docker.internal:host-gateway], on
    win32 [net=host]; for a base url that is not, [run] assigns nothing.
    The [docker_args] object then holds what it held on entry, updated with
    the table, or just what it held on entry. *)
Theorem run_injects_platform_table (w : world) (d0 : gmap string Any) :
  sys_platform = "linux" ∨ sys_platform = "win32" →
  docker_args_on_entry docker_args w = Some d0 →
  extra_docker_args sys_platform is_local
    = (if is_local then platform_table sys_platform else [])
  ∧ heap (launch w).1 !! docker_args_object docker_args w
    = Some (if is_local then dict_update (platform_table sys_platform) d0 else d0).
Proof.
  intros Hplatform Hd0. rewrite (run_docker_args w d0 Hd0).
  destruct Hplatform as [-> | ->]; destruct is_local; done.
Qed.

(** C9. With a base url classified as locally hosted, [run] assigns
    [network=host] on every platform other than win32, documented or not;
    on win32 it assigns [net=host]: the injection is made on every
    platform. *)
Theorem run_injects_network_host_off_win32 (w : world) (d0 : gmap string Any) :
  is_local = true →
  docker_args_on_entry docker_args w = Some d0 →
  ∃ d' : gmap string Any,
    heap (launch w).1 !! docker_args_object docker_args w = Some d'
    ∧ (sys_platform ≠ "win32" → d' !! "network" = Some (PyStr "host"))
    ∧ (sys_platform = "win32" → d' !! "net" = Some (PyStr "host")).
Proof.
  intros Hlocal Hd0. eexists. split; [by apply run_docker_args |].
  rewrite Hlocal. unfold extra_docker_args, dict_update.
  destruct (decide (sys_platform = "win32"));
    destruct (decide (sys_platform = "linux" ∨ sys_platform = "linux2"));
    cbn [app foldl fst snd]; split; intros ?; try done;
    by rewrite ?(lookup_insert_ne _ "add-host"), lookup_insert_eq.
Qed.

(** C10. When the caller passes a dictionary as [docker_args] and the base
    url is classified as locally hosted, [run] assigns to that very object:
    no object is created, the entries [net] (win32) or [network] (elsewhere)
    and [add-host] (linux) hold the injected values whatever they held, every
    key other than [network], [net] and [add-host] holds what it held, and
    every other object of the store is as it was. *)
Theorem run_mutates_docker_args_in_place (w : world) (l : loc) (d0 : gmap string Any) :
  docker_args = Some l →
  heap w !! l = Some d0 →
  is_local = true →
  ∃ d' : gmap string Any,
    heap (launch w).1 !! l = Some d'
    ∧ (if decide (sys_platform = "win32")
       then d' !! "net" = Some (PyStr "host")
       else d' !! "network" = Some (PyStr "host"))
    ∧ (sys_platform = "linux" ∨ sys_platform = "linux2" →
       d' !! "add-host" = Some (PyStr "host.docker.internal:host-gateway"))
    ∧ (∀ k, k ∉ ["network"; "net"; "add-host"] → d' !! k = d0 !! k)
    ∧ length (heap (launch w).1) = length (heap w)
    ∧ (∀ l', l' ≠ l → heap (launch w).1 !! l' = heap w !! l').
Proof.
  intros Hargs Hl Hlocal.
  assert (Hobj : docker_args_object docker_args w = l) by by rewrite Hargs.
  assert (Hd0 : docker_args_on_entry docker_args w = Some d0) by by rewrite Hargs.
  eexists. split; [rewrite <- Hobj at 1; by apply run_docker_args |].
  rewrite run_heap, Hlocal. unfold heap_after_injection, extra_docker_args, dict_update.
  rewrite Hobj, Hargs. unfold heap_with_docker_args.
  split; [| split; [| split; [| split]]].
  - destruct (decide (sys_platform = "win32"));
      destruct (decide (sys_platform = "linux" ∨ sys_platform = "linux2"));
      cbn [app foldl fst snd];
      by rewrite ?(lookup_insert_ne _ "add-host"), lookup_insert_eq.
  - intros Hlinux. rewrite (decide_True _ _ Hlinux).
    destruct (decide (sys_platform = "win32")); cbn [app foldl fst snd];
      by rewrite lookup_insert_eq.
  - intros k Hk. rewrite !not_elem_of_cons in Hk. destruct Hk as (? & ? & ? & _).
    destruct (decide (sys_platform = "win32"));
      destruct (decide (sys_platform = "linux" ∨ sys_platform = "linux2"));
      cbn [app foldl fst snd]; by rewrite !lookup_insert_ne.
  - apply length_alter.
  - intros l' Hne. by apply list_lookup_alter_ne.
Qed.

End Supervisor.

(** ** The ad-hoc push to a queue: [push_to_queue] *)

Section Queue.
Context {Project Backend AbstractRun : Type}.
Local Abbreviation world := (@world Project Backend AbstractRun).
Variables (api : Api) (queue : string) (run_spec : gmap string Any) (w : world).

(** What [push_to_queue] does, by what [api.push_to_run_queue] does. *)
Lemma push_to_queue_eq :
  push_to_queue api queue run_spec w =
  match push_to_run_queue api queue run_spec with
  | Return res => (after w [Call_push_to_run_queue queue run_spec], Return res)
  | Raise e =>
      if isinstance_Exception e
      then (after w [Call_push_to_run_queue queue run_spec; Print_exception e], Return PyNone)
      else (after w [Call_push_to_run_queue queue run_spec], Raise e)
  end.
Proof.
  unfold push_to_queue. eval_M.
  destruct (push_to_run_queue api queue run_spec) as [res|e]; [reflexivity |].
  destruct (isinstance_Exception e); norm_trace; reflexivity.
Qed.

(** An exception that is not an [Exception] is not caught. *)
Lemma push_to_queue_propagates (e : exn) :
  push_to_run_queue api queue run_spec = Raise e →
  isinstance_Exception e = false →
  push_to_queue api queue run_spec w
  = (after w [Call_push_to_run_queue queue run_spec], Raise e).
Proof. intros Hpush He. by rewrite push_to_queue_eq, Hpush, He. Qed.

(** C7, as the code has it.  For every queue name and run spec: when
    [api.push_to_run_queue] raises an exception that is an instance of
    [Exception], [push_to_queue] prints it, raises nothing and returns
    [None]; when the call succeeds, [push_to_queue] returns its result
    unchanged. *)
Theorem push_to_queue_swallows_Exception :
  (∀ e, push_to_run_queue api queue run_spec = Raise e →
        isinstance_Exception e = true →
        push_to_queue api queue run_spec w
        = (after w [Call_push_to_run_queue queue run_spec; Print_exception e],
           Return PyNone))
  ∧ (∀ res, push_to_run_queue api queue run_spec = Return res →
            push_to_queue api queue run_spec w
            = (after w [Call_push_to_run_queue queue run_spec], Return res)).
Proof.
  split.
  - intros e Hpush He. by rewrite push_to_queue_eq, Hpush, He.
  - intros res Hpush. by rewrite push_to_queue_eq, Hpush.
Qed.
End Queue.

(** ** The supervisor with the backend loader *)

Section UnknownResource.
Context {Project Backend AbstractRun : Type}.
Local Abbreviation world := (@world Project Backend AbstractRun).

Variable sys_platform : string.
Variable _is_wandb_local_uri : string → bool.
Variables PROJECT_SYNCHRONOUS PROJECT_DOCKER_ARGS : string.
Variable construct_run_spec :
  string → option string → option string → option string →
  option string → option string → option string →
  option (gmap string Any) → option (gmap string Any) → outcome (gmap string Any).
Variable create_project_from_spec : gmap string Any → Api → outcome Project.
Variable fetch_and_validate_project : Project → Api → outcome Project.
(** The items of the dictionary display that defines [WANDB_RUNNERS]. *)
Variable runners : list (string * (Api → gmap string Any → outcome Backend)).
Variable backend_run : Backend → Project → outcome AbstractRun.
Variable wait : AbstractRun → outcome bool.
Variable cancel : AbstractRun → outcome unit.

Variables (uri : string) (api : Api) (entry_point version : option string).
Variables (parameters : option (gmap string Any)) (docker_args : option loc).
Variables (experiment_name : option string) (resource : string).
Variables (wandb_project wandb_entity docker_image : option string).
Variables (config : option (gmap string Any)) (synchronous : option bool).

Local Abbreviation WANDB_RUNNERS := (dict_display runners).
Local Abbreviation launch :=
  (run sys_platform _is_wandb_local_uri PROJECT_SYNCHRONOUS PROJECT_DOCKER_ARGS
     construct_run_spec create_project_from_spec fetch_and_validate_project
     (loader.load_backend WANDB_RUNNERS) WANDB_RUNNERS backend_run wait cancel
     uri api entry_point version parameters docker_args experiment_name resource
     wandb_project wandb_entity docker_image config synchronous).

Lemma load_backend_unregistered backend_config :
  ¬ loader.registered WANDB_RUNNERS resource →
  loader.load_backend WANDB_RUNNERS resource api backend_config = Return None.
Proof.
  unfold loader.registered, loader.load_backend. intros Hnone.
  destruct (dict_get resource WANDB_RUNNERS) as [runner|]; [| done].
  exfalso. apply Hnone. by eexists.
Qed.

(** C4. For a resource name that is not in the registry, [load_backend]
    returns [None] and raises nothing, and [run], once the run spec is built
    and the project resolved, raises an [ExecutionException] whose message
    names the resource and then lists the keys of the registry, joined by
    commas: a name occurs exactly once in that list if and only if it is
    registered. *)
Theorem run_unknown_resource (w : world) (run_spec : gmap string Any)
    (project project' : Project) :
  ¬ loader.registered WANDB_RUNNERS resource →
  construct_run_spec uri experiment_name wandb_project wandb_entity docker_image
    entry_point version parameters (Some (default ∅ config)) = Return run_spec →
  create_project_from_spec run_spec api = Return project →
  fetch_and_validate_project project api = Return project' →
  (∀ backend_config,
     loader.load_backend WANDB_RUNNERS resource api backend_config = Return None)
  ∧ ∃ names : list string,
      (launch w).2 =
        Raise (ExecutionException
                 ("Unavailable backend " +:+ resource +:+ ", available backends: "
                    +:+ String.concat ", " names))
      ∧ ∀ name, loader.registered WANDB_RUNNERS name ↔ occurrences name names = 1.
Proof.
  intros Hnone H_spec H_create H_fetch.
  split; [intros; by apply load_backend_unregistered |].
  exists (dict_keys WANDB_RUNNERS). split.
  - eapply run_unavailable_backend; [done.. |]. by apply load_backend_unregistered.
  - intros name. unfold loader.registered. rewrite dict_get_is_Some. split.
    + apply occurrences_NoDup, dict_keys_display_NoDup.
    + intros Hocc. destruct (decide (name ∈ dict_keys WANDB_RUNNERS)) as [|Hnin]; [done |].
      apply occurrences_not_elem in Hnin. congruence.
Qed.
End UnknownResource.

(** * The properties on the stub deployment *)

(** The theorem [thm] about [run] at the stub deployment. *)
Local Abbreviation at_stub thm platform api docker_args resource synchronous wait cancel :=
  (thm platform stub._is_wandb_local_uri stub.PROJECT_SYNCHRONOUS stub.PROJECT_DOCKER_ARGS
     stub.construct_run_spec stub.create_project_from_spec stub.fetch_and_validate_project
     stub.load_backend stub.WANDB_RUNNERS stub.backend_run
     (λ _ : nat, wait) (λ _ : nat, cancel)
     "/local/proj" api None None None docker_args None resource None None None None
     synchronous).

(** The calls of the stages of the stub deployment, for [run] called without
    [docker_args] in the empty world. *)
Local Abbreviation stub_stages synchronous :=
  [Call_construct_run_spec "/local/proj" None None None None None None None (Some ∅);
   Call_create_project_from_spec {[ "uri" := PyStr "/local/proj" ]};
   Call_fetch_and_validate_project "project";
   Call_load_backend "local"
     (runner_config_of "SYNCHRONOUS" "DOCKER_ARGS" synchronous (Some 0));
   Call_backend_run "LocalRunner" "project"].

(** The scenario of the design document: the local backend submits, [wait()]
    returns [True]. *)
Lemma run_stages_in_order_witness :
  stub.run "linux" stub.cloud_api None "local" (Some true) (Return true) (Return tt) stub.w0
  = ({| heap := [∅];
        trace := stub_stages (Some true)
                 ++ [Call_wait 7; Log_info "=== Submitted run succeeded ==="] |},
     Return 7).
Proof.
  exact (at_stub run_stages_in_order "linux" stub.cloud_api None "local" (Some true)
           (Return true) (Return tt) stub.w0 _ _ _ _ 7
           eq_refl eq_refl eq_refl eq_refl eq_refl eq_refl eq_refl).
Defined.

(** [wait()] returns [False], and [wait()] returns [True]. *)
Lemma run_synchronous_outcome_witness :
  (stub.run "linux" stub.cloud_api None "local" (Some true) (Return false) (Return tt)
     stub.w0).2 = Raise (ExecutionException "Submitted run failed")
  ∧ (stub.run "linux" stub.cloud_api None "local" (Some true) (Return true) (Return tt)
       stub.w0).2 = Return 7.
Proof.
  split.
  - exact (proj1 (at_stub run_synchronous_outcome "linux" stub.cloud_api None "local"
                    (Some true) (Return false) (Return tt) stub.w0 _ _ _ _ 7
                    eq_refl eq_refl eq_refl eq_refl eq_refl eq_refl) eq_refl).
  - exact (proj2 (at_stub run_synchronous_outcome "linux" stub.cloud_api None "local"
                    (Some true) (Return true) (Return tt) stub.w0 _ _ _ _ 7
                    eq_refl eq_refl eq_refl eq_refl eq_refl eq_refl) eq_refl).
Defined.


(** [wait()] raises a [RuntimeError]: no [cancel()]. *)
Lemma run_cancels_on_interrupt_only_witness :
  stub.run "linux" stub.cloud_api None "local" (Some true)
    (Raise (OtherException "RuntimeError" "connection lost")) (Return tt) stub.w0
  = ({| heap := [∅]; trace := stub_stages (Some true) ++ [Call_wait 7] |},
     Raise (OtherException "RuntimeError" "connection lost"))
  ∧ cancel_calls 7
      (trace (stub.run "linux" stub.cloud_api None "local" (Some true)
                (Raise (OtherException "RuntimeError" "connection lost")) (Return tt)
                stub.w0).1) = 0.
Proof.
  exact (at_stub run_cancels_on_interrupt_only "linux" stub.cloud_api None "local"
           (Some true) (Raise (OtherException "RuntimeError" "connection lost"))
           (Return tt) stub.w0 _ _ _ _ 7
           eq_refl eq_refl eq_refl eq_refl eq_refl
           (OtherException "RuntimeError" "connection lost") eq_refl eq_refl).
Defined.

(** C6, as the claim has it, fails: [wait()] of the submitted run raises a
    [ConnectionError]; the exception reaches the caller of [run], and [run]
    has not called [cancel()] on the handle. *)
Lemma run_no_cancel_on_other_exception :
  (stub.run "linux" stub.cloud_api None "local" (Some true)
     (Raise (OtherException "ConnectionError" "reset by peer")) (Return tt) stub.w0).2
  = Raise (OtherException "ConnectionError" "reset by peer")
  ∧ cancel_calls 7
      (trace (stub.run "linux" stub.cloud_api None "local" (Some true)
                (Raise (OtherException "ConnectionError" "reset by peer")) (Return tt)
                stub.w0).1) = 0.
Proof. split; vm_compute; reflexivity. Qed.

(** C2, on the code: [run] with [synchronous=False] builds the run spec,
    resolves the project, loads the backend and calls [backend.run] before
    it raises [LaunchException]. *)
Theorem run_not_synchronous_submits_first :
  stub.run "linux" stub.cloud_api None "local" (Some false) (Return true) (Return tt) stub.w0
  = ({| heap := [∅]; trace := stub_stages (Some false) |},
     Raise (LaunchException "Non synchronous mode not supported")).
Proof.
  exact (at_stub run_not_synchronous "linux" stub.cloud_api None "local" (Some false)
           (Return true) (Return tt) stub.w0 _ _ _ _ 7
           eq_refl eq_refl eq_refl eq_refl eq_refl eq_refl).
Qed.

(** linux, a locally hosted service, no [docker_args] from the caller. *)
Lemma run_injects_platform_table_witness :
  extra_docker_args "linux" true
  = [("network", PyStr "host"); ("add-host", PyStr "host.docker.internal:host-gateway")]
  ∧ heap (stub.run "linux" stub.local_api None "local" (Some true) (Return true)
            (Return tt) stub.w0).1 !! 0
    = Some (<["add-host" := PyStr "host.docker.internal:host-gateway"]>
              (<["network" := PyStr "host"]> ∅)).
Proof.
  exact (at_stub run_injects_platform_table "linux" stub.local_api None "local"
           (Some true) (Return true) (Return tt) stub.w0 ∅ (or_introl eq_refl) eq_refl).
Defined.

(** darwin, a locally hosted service. *)
Lemma run_injects_network_host_off_win32_witness :
  ∃ d' : gmap string Any,
    heap (stub.run "darwin" stub.local_api None "local" (Some true) (Return true)
            (Return tt) stub.w0).1 !! 0 = Some d'
    ∧ d' !! "network" = Some (PyStr "host").
Proof.
  destruct (at_stub run_injects_network_host_off_win32 "darwin" stub.local_api None
              "local" (Some true) (Return true) (Return tt) stub.w0 ∅ eq_refl eq_refl)
    as (d' & Hd' & Hnetwork & _).
  exists d'. split; [exact Hd' |]. apply Hnetwork. discriminate.
Defined.

(** win32, a locally hosted service, the caller's dictionary at location 0
    with [net] set to [bridge]. *)
Lemma run_mutates_docker_args_in_place_witness :
  ∃ d' : gmap string Any,
    heap (stub.run "win32" stub.local_api (Some 0) "local" (Some true) (Return true)
            (Return tt) stub.w1).1 !! 0 = Some d'
    ∧ d' !! "net" = Some (PyStr "host")
    ∧ d' !! "rm" = Some (PyBool true)
    ∧ length (heap (stub.run "win32" stub.local_api (Some 0) "local" (Some true)
                      (Return true) (Return tt) stub.w1).1) = 1.
Proof.
  destruct (at_stub run_mutates_docker_args_in_place "win32" stub.local_api (Some 0)
              "local" (Some true) (Return true) (Return tt) stub.w1 0
              {[ "rm" := PyBool true; "net" := PyStr "bridge" ]} eq_refl eq_refl eq_refl)
    as (d' & Hd' & Hnet & _ & Hother & Hlength & _).
  exists d'. split; [exact Hd' |]. split; [exact Hnet |]. split; [| exact Hlength].
  rewrite (Hother "rm"); [reflexivity |].
  rewrite !not_elem_of_cons. repeat split; try discriminate. apply not_elem_of_nil.
Defined.

(** The resource [nonexistent] with the registry of the stub deployment. *)
Lemma run_unknown_resource_witness :
  (∀ backend_config,
     stub.load_backend "nonexistent" stub.cloud_api backend_config = Return None)
  ∧ ∃ names : list string,
      (stub.run "linux" stub.cloud_api None "nonexistent" (Some true) (Return true)
         (Return tt) stub.w0).2
      = Raise (ExecutionException
                 ("Unavailable backend " +:+ "nonexistent" +:+ ", available backends: "
                    +:+ String.concat ", " names))
      ∧ ∀ name, loader.registered stub.WANDB_RUNNERS name ↔ occurrences name names = 1.
Proof.
  refine (run_unknown_resource "linux" stub._is_wandb_local_uri
            stub.PROJECT_SYNCHRONOUS stub.PROJECT_DOCKER_ARGS
            stub.construct_run_spec stub.create_project_from_spec
            stub.fetch_and_validate_project [("local", λ _ _, Return "LocalRunner")]
            stub.backend_run (λ _ : nat, Return true) (λ _ : nat, Return tt)
            "/local/proj" stub.cloud_api None None None None None "nonexistent"
            None None None None (Some true) stub.w0 _ _ _ _ eq_refl eq_refl eq_refl).
  intros [runner Hrunner]. discriminate Hrunner.
Defined.

(** C7, as the claim has it, fails: [api.push_to_run_queue] raises
    [KeyboardInterrupt], which is an exception and not an [Exception];
    [push_to_queue] does not return [None], it raises. *)
Lemma push_to_queue_interrupt_propagates :
  push_to_run_queue (stub.failing_api KeyboardInterrupt) "default" ∅
  = Raise KeyboardInterrupt
  ∧ push_to_queue (stub.failing_api KeyboardInterrupt) "default" ∅ stub.w0
    = ({| heap := []; trace := [Call_push_to_run_queue "default" ∅] |},
       Raise KeyboardInterrupt).
Proof. split; reflexivity. Qed.

(** The push fails with a [ConnectionError]; the push succeeds. *)
Lemma push_to_queue_swallows_Exception_witness :
  push_to_queue (stub.failing_api (OtherException "ConnectionError" "timed out"))
    "default" ∅ stub.w0
  = ({| heap := [];
        trace := [Call_push_to_run_queue "default" ∅;
                  Print_exception (OtherException "ConnectionError" "timed out")] |},
     Return PyNone)
  ∧ push_to_queue stub.cloud_api "default" ∅ stub.w0
    = ({| heap := []; trace := [Call_push_to_run_queue "default" ∅] |},
       Return (PyStr "queued")).
Proof.
  split.
  - exact (proj1 (push_to_queue_swallows_Exception
                    (stub.failing_api (OtherException "ConnectionError" "timed out"))
                    "default" ∅ stub.w0)
             (OtherException "ConnectionError" "timed out") eq_refl eq_refl).
  - exact (proj2 (push_to_queue_swallows_Exception stub.cloud_api "default" ∅ stub.w0)
             (PyStr "queued") eq_refl).
Defined.

(** The message for the resource [nonexistent], as text. *)
Example run_nonexistent_message :
  (stub.run "linux" stub.cloud_api None "nonexistent" (Some true) (Return true) (Return tt)
     stub.w0).2
  = Raise (ExecutionException "Unavailable backend nonexistent, available backends: local").
Proof. vm_compute. reflexivity. Qed.

(** * Every path through [run] *)

(** One step of the case analysis of a run: the next call whose outcome
    decides how the run goes on. *)
Ltac run_path_step :=
  match goal with
  | |- context [_wait_for ?wt ?cn ?h ?w] => rewrite (_wait_for_eq wt cn h w)
  | |- context [match ?o with Return _ => _ | Raise _ => _ end] => destruct o eqn:?
  | |- context [match ?o with Some _ => _ | None => _ end] => destruct o eqn:?
  | |- context [if ?b then _ else _] => destruct b eqn:?
  end; cbv beta iota.

(** A property of the events of a run, once the path is known. *)
Ltac run_path_events Htrace :=
  unfold after; cbn [fst snd trace heap]; intros Htrace;
  rewrite <- ?app_assoc in Htrace; apply app_inv_head in Htrace; cbn [app] in Htrace;
  subst.

Ltac event_cases Hin :=
  rewrite ?elem_of_cons, ?elem_of_nil in Hin; destruct_or?; simplify_eq.

Section Paths.
Context {Project Backend AbstractRun : Type}.
Local Abbreviation world := (@world Project Backend AbstractRun).
Local Abbreviation event := (@event Project Backend AbstractRun).

Variable sys_platform : string.
Variable _is_wandb_local_uri : string → bool.
Variables PROJECT_SYNCHRONOUS PROJECT_DOCKER_ARGS : string.
Variable construct_run_spec :
  string → option string → option string → option string →
  option string → option string → option string →
  option (gmap string Any) → option (gmap string Any) → outcome (gmap string Any).
Variable create_project_from_spec : gmap string Any → Api → outcome Project.
Variable fetch_and_validate_project : Project → Api → outcome Project.
Variable load_backend : string → Api → gmap string Any → outcome (option Backend).
Variable WANDB_RUNNERS : list (string * (Api → gmap string Any → outcome Backend)).
Variable backend_run : Backend → Project → outcome AbstractRun.
Variable wait : AbstractRun → outcome bool.
Variable cancel : AbstractRun → outcome unit.

Variables (uri : string) (api : Api) (entry_point version : option string).
Variables (parameters : option (gmap string Any)) (docker_args : option loc).
Variables (experiment_name : option string) (resource : string).
Variables (wandb_project wandb_entity docker_image : option string).
Variables (config : option (gmap string Any)) (synchronous : option bool).

Local Abbreviation submit :=
  (_run PROJECT_SYNCHRONOUS PROJECT_DOCKER_ARGS construct_run_spec create_project_from_spec
     fetch_and_validate_project load_backend WANDB_RUNNERS backend_run
     uri experiment_name wandb_project wandb_entity docker_image entry_point version parameters).
Local Abbreviation launch :=
  (run sys_platform _is_wandb_local_uri PROJECT_SYNCHRONOUS PROJECT_DOCKER_ARGS
     construct_run_spec create_project_from_spec fetch_and_validate_project
     load_backend WANDB_RUNNERS backend_run wait cancel
     uri api entry_point version parameters docker_args experiment_name resource
     wandb_project wandb_entity docker_image config synchronous).
Local Abbreviation is_local := (_is_wandb_local_uri (settings api "base_url")).
Local Abbreviation the_config w :=
  (runner_config_of PROJECT_SYNCHRONOUS PROJECT_DOCKER_ARGS synchronous
     (Some (docker_args_object docker_args w))).

(** What [_run] does, by what the stages do: it stops at the first stage
    that raises, and at a loader that returns [None]. *)
Lemma _run_eq da r c s a (w1 : world) :
  submit da r c s a w1 =
  let c1 : event :=
    Call_construct_run_spec uri experiment_name wandb_project wandb_entity docker_image
      entry_point version parameters c in
  let cfg := runner_config_of PROJECT_SYNCHRONOUS PROJECT_DOCKER_ARGS s da in
  match construct_run_spec uri experiment_name wandb_project wandb_entity docker_image
          entry_point version parameters c with
  | Raise e => (after w1 [c1], Raise e)
  | Return run_spec =>
      let c2 : event := Call_create_project_from_spec run_spec in
      match create_project_from_spec run_spec a with
      | Raise e => (after w1 [c1; c2], Raise e)
      | Return project =>
          let c3 : event := Call_fetch_and_validate_project project in
          match fetch_and_validate_project project a with
          | Raise e => (after w1 [c1; c2; c3], Raise e)
          | Return project' =>
              let c4 : event := Call_load_backend r cfg in
              match load_backend r a cfg with
              | Raise e => (after w1 [c1; c2; c3; c4], Raise e)
              | Return None =>
                  (after w1 [c1; c2; c3; c4],
                   Raise (ExecutionException
                            ("Unavailable backend " +:+ r +:+ ", available backends: "
                               +:+ String.concat ", " (dict_keys WANDB_RUNNERS))))
              | Return (Some backend) =>
                  let c5 : event := Call_backend_run backend project' in
                  match backend_run backend project' with
                  | Raise e => (after w1 [c1; c2; c3; c4; c5], Raise e)
                  | Return h => (after w1 [c1; c2; c3; c4; c5], Return h)
                  end
              end
          end
      end
  end.
Proof.
  unfold _run, runner_config_of. eval_M.
  destruct (construct_run_spec _ _ _ _ _ _ _ _ _) as [run_spec|e]; [| reflexivity].
  destruct (create_project_from_spec _ _) as [project|e];
    [| norm_trace; reflexivity].
  destruct (fetch_and_validate_project _ _) as [project'|e];
    [| norm_trace; reflexivity].
  destruct (load_backend _ _ _) as [[backend|]|e]; norm_trace; reflexivity.
Qed.

(** [run] as the injection, [_run] and the wait. *)
Lemma run_paths (w : world) :
  launch w =
  match submit (Some (docker_args_object docker_args w)) resource
          (Some (default ∅ config)) synchronous api
          {| heap := heap_after_injection sys_platform is_local docker_args w;
             trace := trace w |} with
  | (w', Return h) =>
      if truthy synchronous then
        match _wait_for wait cancel h w' with
        | (w'', Return _) => (w'', Return h)
        | (w'', Raise e) => (w'', Raise e)
        end
      else (w', Raise (LaunchException "Non synchronous mode not supported"))
  | (w', Raise e) => (w', Raise e)
  end.
Proof.
  rewrite run_eq. unfold mbind, M_bind, bind.
  destruct (submit _ _ _ _ _ _) as [w' [h|e]]; [| reflexivity].
  destruct (truthy synchronous); [| reflexivity].
  destruct (_wait_for wait cancel h w') as [w'' [[]|e]]; reflexivity.
Qed.

Ltac run_paths_of w :=
  rewrite (run_paths w), _run_eq; cbv zeta; repeat run_path_step.

(** X1. [run] calls [backend.run] only on a backend that the loader has
    returned for the resource, and only with the project that
    [fetch_and_validate_project] has returned: whenever one of the earlier
    stages raises, or the loader returns [None], nothing is submitted. *)
Theorem run_submits_only_validated (w : world) evs backend project' :
  trace (launch w).1 = trace w ++ evs →
  Call_backend_run backend project' ∈ evs →
  ∃ run_spec project,
    construct_run_spec uri experiment_name wandb_project wandb_entity docker_image
      entry_point version parameters (Some (default ∅ config)) = Return run_spec
    ∧ create_project_from_spec run_spec api = Return project
    ∧ fetch_and_validate_project project api = Return project'
    ∧ load_backend resource api (the_config w) = Return (Some backend).
Proof.
  intros Htrace Hin. revert Htrace. run_paths_of w.
  all: run_path_events Htrace; event_cases Hin; eauto 10.
Qed.

(** X2. [run] calls [wait()] only in synchronous mode, and only on a handle
    that a [backend.run] call of this very run has returned. *)
Theorem run_waits_only_on_submitted (w : world) evs h :
  trace (launch w).1 = trace w ++ evs →
  Call_wait h ∈ evs →
  truthy synchronous = true
  ∧ ∃ backend project',
      Call_backend_run backend project' ∈ evs
      ∧ backend_run backend project' = Return h.
Proof.
  intros Htrace Hin. revert Htrace. run_paths_of w.
  all: run_path_events Htrace; event_cases Hin.
  all: split; [done |]; do 2 eexists; split; [| eassumption].
  all: rewrite !elem_of_cons; auto 10.
Qed.

(** X3. [run] calls [cancel()] on a handle only when [wait()] on that handle
    has raised a [KeyboardInterrupt]: a run that fails, a [wait()] that
    raises anything else, a stage that raises, none of them is followed by
    a [cancel()]. *)
Theorem run_cancels_only_after_interrupt (w : world) evs h :
  trace (launch w).1 = trace w ++ evs →
  Call_cancel h ∈ evs →
  Call_wait h ∈ evs
  ∧ ∃ e, wait h = Raise e ∧ isinstance_KeyboardInterrupt e = true.
Proof.
  intros Htrace Hin. revert Htrace. run_paths_of w.
  all: run_path_events Htrace; event_cases Hin.
  all: split; [rewrite !elem_of_cons; auto 10 | eauto].
Qed.

(** X4. [run] returns a handle only in synchronous mode, and the handle it
    returns is one that [backend.run] has returned and whose [wait()] has
    returned true. *)
Theorem run_returns_only_succeeded (w : world) h :
  (launch w).2 = Return h →
  truthy synchronous = true
  ∧ wait h = Return true
  ∧ ∃ backend project', backend_run backend project' = Return h.
Proof.
  intros Hreturn. revert Hreturn. run_paths_of w.
  all: cbn [snd]; intros Hreturn; simplify_eq; eauto 10.
Qed.


(** X6. The loader is asked for the resource of the caller, with a runner
    configuration that holds, under [PROJECT_DOCKER_ARGS], a reference to
    the [docker_args] object of this run (never [None]); under
    [PROJECT_SYNCHRONOUS], when the two keys differ, the [synchronous]
    argument as given; and nothing else. *)
Theorem run_loader_config (w : world) evs r (cfg : gmap string Any) :
  trace (launch w).1 = trace w ++ evs →
  Call_load_backend r cfg ∈ evs →
  r = resource
  ∧ cfg !! PROJECT_DOCKER_ARGS = Some (PyRef (docker_args_object docker_args w))
  ∧ (PROJECT_SYNCHRONOUS ≠ PROJECT_DOCKER_ARGS →
     cfg !! PROJECT_SYNCHRONOUS = Some (of_optional_bool synchronous))
  ∧ (∀ k, k ≠ PROJECT_SYNCHRONOUS → k ≠ PROJECT_DOCKER_ARGS → cfg !! k = None).
Proof.
  intros Htrace Hin. revert Htrace. run_paths_of w.
  all: run_path_events Htrace; event_cases Hin.
  all: unfold runner_config_of; cbn [of_optional_ref].
  all: split; [done |]; split; [by rewrite lookup_insert_eq |]; split.
  all: try (intros Hne; by rewrite lookup_insert_ne, lookup_insert_eq).
  all: intros k Hk1 Hk2; by rewrite !lookup_insert_ne, lookup_empty.
Qed.


(** *** The store *)

Lemma dict_update_extra_docker_args_idemp platform b (d : gmap string Any) :
  dict_update (extra_docker_args platform b) (dict_update (extra_docker_args platform b) d)
  = dict_update (extra_docker_args platform b) d.
Proof.
  unfold extra_docker_args, dict_update.
  destruct b; [| done].
  destruct (decide (platform = "win32"));
    destruct (decide (platform = "linux" ∨ platform = "linux2"));
    cbn [app foldl fst snd]; apply map_eq; intros k;
    rewrite !lookup_insert; repeat case_decide; done.
Qed.

(** X8. Without [docker_args] from the caller, [run] works on a dictionary
    of its own, created by this call: the store has one object more, and
    every object that was in the store holds what it held. *)
Theorem run_fresh_docker_args (w : world) :
  docker_args = None →
  length (heap (launch w).1) = S (length (heap w))
  ∧ docker_args_object docker_args w = length (heap w)
  ∧ ∀ l d, heap w !! l = Some d → heap (launch w).1 !! l = Some d.
Proof.
  intros Hargs. rewrite run_heap. unfold heap_after_injection.
  rewrite Hargs. cbn [docker_args_object heap_with_docker_args].
  split; [| split; [done |]].
  - rewrite length_alter, length_app. cbn [length]. lia.
  - intros l d Hl. rewrite list_lookup_alter_ne.
    + by apply lookup_app_l_Some.
    + apply lookup_lt_Some in Hl. lia.
Qed.

(** X9. Calling [run] again with the same [docker_args] dictionary changes
    nothing more: the store after the second call is the store after the
    first. *)
Theorem run_injection_idempotent (w : world) (l : loc) :
  docker_args = Some l →
  heap (launch (launch w).1).1 = heap (launch w).1.
Proof.
  intros Hargs.
  assert (Hheap : ∀ w' : world,
    heap (launch w').1
    = alter (dict_update (extra_docker_args sys_platform is_local)) l (heap w')).
  { intros w'. rewrite run_heap. unfold heap_after_injection. by rewrite Hargs. }
  rewrite (Hheap (launch w).1), (Hheap w), list_alter_alter_eq.
  apply list_alter_ext; [| done].
  intros d _. apply dict_update_extra_docker_args_idemp.
Qed.

End Paths.

(** * More on [push_to_queue] *)

Section QueuePaths.
Context {Project Backend AbstractRun : Type}.
Local Abbreviation world := (@world Project Backend AbstractRun).
Variables (api : Api) (queue : string) (run_spec : gmap string Any) (w : world).

(** X10. [push_to_queue] raises exactly when [api.push_to_run_queue] raises
    an exception that is not an instance of [Exception], and then it raises
    that exception: it never raises an [Exception]. *)
Theorem push_to_queue_raises_iff (e : exn) :
  (push_to_queue api queue run_spec w).2 = Raise e
  ↔ push_to_run_queue api queue run_spec = Raise e ∧ isinstance_Exception e = false.
Proof.
  rewrite push_to_queue_eq.
  destruct (push_to_run_queue api queue run_spec) as [res|e'].
  - split; [done | intros [? _]; done].
  - destruct (isinstance_Exception e') eqn:He'; cbn [snd].
    + split; [done | intros [[= ->] ?]; congruence].
    + split; [intros [= ->]; done | intros [[= ->] _]; done].
Qed.

(** X11. A result [None] of [push_to_queue] does not tell a failure from a
    success: [push_to_queue] returns [None] exactly when the push has
    returned [None] or has raised an instance of [Exception]. *)
Theorem push_to_queue_None_iff :
  (push_to_queue api queue run_spec w).2 = Return PyNone
  ↔ push_to_run_queue api queue run_spec = Return PyNone
    ∨ ∃ e, push_to_run_queue api queue run_spec = Raise e
           ∧ isinstance_Exception e = true.
Proof.
  rewrite push_to_queue_eq.
  destruct (push_to_run_queue api queue run_spec) as [res|e].
  - cbn [snd]. split; [intros [= ->]; by left | intros [[= ->] | (? & ? & _)]; done].
  - destruct (isinstance_Exception e) eqn:He; cbn [snd].
    + split; [intros _; right; eauto | done].
    + split; [done | intros [? | (e' & [= ->] & ?)]; [done | congruence]].
Qed.

(** X12. [push_to_queue] makes one attempt: it calls
    [api.push_to_run_queue] once, with the queue and the run spec it was
    given, before anything else, it never calls it again whatever the
    outcome, and it leaves the store as it is. *)
Theorem push_to_queue_once :
  ∃ rest,
    trace (push_to_queue api queue run_spec w).1
    = trace w ++ Call_push_to_run_queue queue run_spec :: rest
    ∧ (∀ q s, Call_push_to_run_queue q s ∉ rest)
    ∧ heap (push_to_queue api queue run_spec w).1 = heap w.
Proof.
  rewrite push_to_queue_eq.
  destruct (push_to_run_queue api queue run_spec) as [res|e];
    [| destruct (isinstance_Exception e)]; unfold after; cbn [fst trace heap].
  - exists []. split; [done |]. split; [| done]. intros q s Hin. by apply elem_of_nil in Hin.
  - exists [Print_exception e]. split; [done |]. split; [| done].
    intros q s Hin. apply list_elem_of_singleton in Hin. discriminate.
  - exists []. split; [done |]. split; [| done]. intros q s Hin. by apply elem_of_nil in Hin.
Qed.
End QueuePaths.

(** * The allowlist tests *)

Section Allowlists.
Import test_library_public.
Implicit Types (s : string) (symbol_list : list string) (X A B C : gset string).

(** The public symbols are the names that do not start with an underscore. *)
Lemma elem_of_public_symbols s symbol_list :
  s ∈ public_symbols symbol_list ↔ s ∈ symbol_list ∧ startswith_underscore s = false.
Proof.
  unfold public_symbols. rewrite elem_of_list_to_set, list_elem_of_In, filter_In.
  rewrite <- list_elem_of_In, negb_true_iff. done.
Qed.

Lemma assert_empty_Return X : assert_empty X = Return tt ↔ X = ∅.
Proof. unfold assert_empty. case_decide; split; done. Qed.

(** The assertion on what is left of [X] when the allowlists are taken
    away holds exactly when the allowlists cover [X]. *)
Lemma assert_empty_difference X A :
  assert_empty (X ∖ A) = Return tt ↔ ∀ s, s ∈ X → s ∈ A.
Proof.
  rewrite assert_empty_Return. split.
  - intros Hempty s Hs. destruct (decide (s ∈ A)) as [|Hnot]; [done |].
    exfalso. eapply (not_elem_of_empty (C:=gset string) s). rewrite <- Hempty.
    by apply elem_of_difference.
  - intros Hall. apply set_eq. intros s. rewrite elem_of_difference.
    split; [intros [Hs Hnot]; by apply Hall in Hs |].
    intros Hs. by apply not_elem_of_empty in Hs.
Qed.

Lemma assert_empty_difference2 X A B :
  assert_empty (X ∖ A ∖ B) = Return tt ↔ ∀ s, s ∈ X → s ∈ A ∨ s ∈ B.
Proof.
  rewrite assert_empty_difference. split.
  - intros Hall s Hs. destruct (decide (s ∈ A)) as [|Hnot]; [by left | right].
    apply Hall. by apply elem_of_difference.
  - intros Hall s Hs. apply elem_of_difference in Hs as [Hs Hnot].
    by destruct (Hall s Hs).
Qed.

Lemma assert_empty_difference3 X A B C :
  assert_empty (X ∖ A ∖ B ∖ C) = Return tt ↔ ∀ s, s ∈ X → s ∈ A ∨ s ∈ B ∨ s ∈ C.
Proof.
  rewrite assert_empty_difference2. split.
  - intros Hall s Hs. destruct (decide (s ∈ A)) as [|Hnot]; [by left | right].
    apply Hall. by apply elem_of_difference.
  - intros Hall s Hs. apply elem_of_difference in Hs as [Hs Hnot].
    destruct (Hall s Hs) as [? | [? | ?]]; auto. done.
Qed.

(** X13. [test_library_root] passes exactly when every name of [dir(wandb)]
    that does not start with an underscore is in one of the three
    allowlists; names that start with an underscore never make it fail, and
    it asks for no name to be present. *)
Theorem test_library_root_passes_iff (dir_wandb : list string) :
  (test_library_root dir_wandb).2 = Return tt
  ↔ ∀ s, s ∈ dir_wandb → startswith_underscore s = false →
         s ∈ SYMBOLS_ROOT_DATATYPES ∨ s ∈ SYMBOLS_ROOT_SDK ∨ s ∈ SYMBOLS_ROOT_OTHER.
Proof.
  unfold test_library_root. cbn [snd]. rewrite assert_empty_difference3.
  split.
  - intros Hall s Hin Hpublic. apply Hall. by apply elem_of_public_symbols.
  - intros Hall s Hs. apply elem_of_public_symbols in Hs as [Hin Hpublic]. auto.
Qed.

(** X14. [test_library_run] passes exactly when every name of [dir(Run)]
    that does not start with an underscore is in one of the three allowlists
    of the run. *)
Theorem test_library_run_passes_iff (dir_Run : list string) :
  (test_library_run dir_Run).2 = Return tt
  ↔ ∀ s, s ∈ dir_Run → startswith_underscore s = false →
         s ∈ SYMBOLS_RUN ∨ s ∈ SYMBOLS_RUN_RESUME ∨ s ∈ SYMBOLS_RUN_OTHER.
Proof.
  unfold test_library_run. cbn [snd]. rewrite assert_empty_difference3.
  split.
  - intros Hall s Hin Hpublic. apply Hall. by apply elem_of_public_symbols.
  - intros Hall s Hs. apply elem_of_public_symbols in Hs as [Hin Hpublic]. auto.
Qed.

(** X15. [test_library_config] passes exactly when every name of
    [dir(Config)] that does not start with an underscore is in one of the
    two allowlists of the config. *)
Theorem test_library_config_passes_iff (dir_Config : list string) :
  (test_library_config dir_Config).2 = Return tt
  ↔ ∀ s, s ∈ dir_Config → startswith_underscore s = false →
         s ∈ SYMBOLS_CONFIG ∨ s ∈ SYMBOLS_CONFIG_OTHER.
Proof.
  unfold test_library_config. cbn [snd]. rewrite assert_empty_difference2.
  split.
  - intros Hall s Hin Hpublic. apply Hall. by apply elem_of_public_symbols.
  - intros Hall s Hs. apply elem_of_public_symbols in Hs as [Hin Hpublic]. auto.
Qed.
End Allowlists.

(** * The further properties on the stub deployment *)

(** The events of the scenario of the design document. *)
Local Abbreviation stub_success :=
  (stub_stages (Some true) ++ [Call_wait 7; Log_info "=== Submitted run succeeded ==="]).

(** The events when [wait()] is interrupted. *)
Local Abbreviation stub_interrupted :=
  (stub_stages (Some true)
   ++ [Call_wait 7; Log_error "=== Submitted run interrupted, cancelling run ===";
       Call_cancel 7]).

Lemma run_submits_only_validated_witness :
  ∃ run_spec project,
    stub.construct_run_spec "/local/proj" None None None None None None None (Some ∅)
    = Return run_spec
    ∧ stub.create_project_from_spec run_spec stub.cloud_api = Return project
    ∧ stub.fetch_and_validate_project project stub.cloud_api = Return "project"
    ∧ stub.load_backend "local" stub.cloud_api
        (runner_config_of "SYNCHRONOUS" "DOCKER_ARGS" (Some true) (Some 0))
      = Return (Some "LocalRunner").
Proof.
  refine (at_stub run_submits_only_validated "linux" stub.cloud_api None "local"
            (Some true) (Return true) (Return tt) stub.w0 stub_success
            "LocalRunner" "project" eq_refl _).
  cbn [app]. repeat constructor.
Defined.

Lemma run_waits_only_on_submitted_witness :
  truthy (Some true) = true
  ∧ ∃ backend project',
      Call_backend_run backend project' ∈ stub_success
      ∧ stub.backend_run backend project' = Return 7.
Proof.
  refine (at_stub run_waits_only_on_submitted "linux" stub.cloud_api None "local"
            (Some true) (Return true) (Return tt) stub.w0 stub_success 7 eq_refl _).
  cbn [app]. repeat constructor.
Defined.

Lemma run_cancels_only_after_interrupt_witness :
  Call_wait 7 ∈ stub_interrupted
  ∧ ∃ e, (Raise KeyboardInterrupt : outcome bool) = Raise e
         ∧ isinstance_KeyboardInterrupt e = true.
Proof.
  refine (at_stub run_cancels_only_after_interrupt "linux" stub.cloud_api None "local"
            (Some true) (Raise KeyboardInterrupt) (Return tt) stub.w0 stub_interrupted 7
            eq_refl _).
  cbn [app]. repeat constructor.
Defined.

Lemma run_returns_only_succeeded_witness :
  truthy (Some true) = true
  ∧ (Return true : outcome bool) = Return true
  ∧ ∃ backend project', stub.backend_run backend project' = Return 7.
Proof.
  exact (at_stub run_returns_only_succeeded "linux" stub.cloud_api None "local"
           (Some true) (Return true) (Return tt) stub.w0 7 eq_refl).
Defined.


Lemma run_loader_config_witness :
  let cfg := runner_config_of "SYNCHRONOUS" "DOCKER_ARGS" (Some true) (Some 0) in
  "local" = "local"
  ∧ cfg !! "DOCKER_ARGS" = Some (PyRef 0)
  ∧ ("SYNCHRONOUS" ≠ "DOCKER_ARGS" → cfg !! "SYNCHRONOUS" = Some (PyBool true))
  ∧ (∀ k, k ≠ "SYNCHRONOUS" → k ≠ "DOCKER_ARGS" → cfg !! k = None).
Proof.
  refine (at_stub run_loader_config "linux" stub.cloud_api None "local"
            (Some true) (Return true) (Return tt) stub.w0 stub_success "local"
            (runner_config_of "SYNCHRONOUS" "DOCKER_ARGS" (Some true) (Some 0))
            eq_refl _).
  cbn [app]. repeat constructor.
Defined.

(** The caller owns the dictionary at location 0 and passes none. *)
Lemma run_fresh_docker_args_witness :
  length (heap (stub.run "linux" stub.local_api None "local" (Some true) (Return true)
                  (Return tt) stub.w1).1) = 2
  ∧ docker_args_object None stub.w1 = 1
  ∧ ∀ l d, heap stub.w1 !! l = Some d →
           heap (stub.run "linux" stub.local_api None "local" (Some true) (Return true)
                   (Return tt) stub.w1).1 !! l = Some d.
Proof.
  exact (at_stub run_fresh_docker_args "linux" stub.local_api None "local"
           (Some true) (Return true) (Return tt) stub.w1 eq_refl).
Defined.

(** The caller passes the dictionary at location 0, twice. *)
Lemma run_injection_idempotent_witness :
  heap (stub.run "win32" stub.local_api (Some 0) "local" (Some true) (Return true)
          (Return tt)
          (stub.run "win32" stub.local_api (Some 0) "local" (Some true) (Return true)
             (Return tt) stub.w1).1).1
  = heap (stub.run "win32" stub.local_api (Some 0) "local" (Some true) (Return true)
            (Return tt) stub.w1).1.
Proof.
  exact (at_stub run_injection_idempotent "win32" stub.local_api (Some 0) "local"
           (Some true) (Return true) (Return tt) stub.w1 0 eq_refl).
Defined.

(** [wait()] is interrupted and [cancel()] raises an [OSError]. *)
Lemma run_interrupt_cancel_raises_witness :
  (stub.run "linux" stub.cloud_api None "local" (Some true) (Raise KeyboardInterrupt)
     (Raise (OtherException "OSError" "no such process")) stub.w0).2
  = Raise (OtherException "OSError" "no such process").
Proof.
  exact (at_stub run_interrupt_cancel_raises "linux" stub.cloud_api None "local"
           (Some true) (Raise KeyboardInterrupt)
           (Raise (OtherException "OSError" "no such process")) stub.w0 _ _ _ _ 7
           eq_refl eq_refl eq_refl eq_refl eq_refl
           (OtherException "OSError" "no such process") eq_refl eq_refl eq_refl).
Defined.

(** The root allowlists on three names of the library and a private one,
    and on a name that is in none of them. *)
Example test_library_root_passes :
  (test_library_public.test_library_root ["__name__"; "init"; "Image"; "termlog"]).2
  = Return tt.
Proof. vm_compute. reflexivity. Qed.

Example test_library_root_fails :
  (test_library_public.test_library_root ["init"; "launch"]).2
  = Raise (OtherException "AssertionError" "").
Proof. vm_compute. reflexivity. Qed.
